(** * GreatFET host library: the SPI bus peripheral

    A shallow embedding of [host/greatfet/peripherals/spi_bus.py] and the
    properties of its three methods: the constructor, [attach_device] and
    [transmit].

    Python objects live in a store and are named by references, so that the
    in-place [data.extend(...)] of [transmit] and the in-place
    [self.devices.append(...)] of [attach_device] are visible to every
    holder of the same list.  The board is the external collaborator: its
    two vendor-request methods are an interface, and every request issued
    to it is recorded in a trace. *)

From Stdlib Require Import ZArith String List Lia.
From stdpp Require Import base option list gmap.

Open Scope Z_scope.

(** ** Python values, exceptions and vendor requests *)

(** A reference names an object of the store. *)
Definition ref := positive.

(** What a Python list may hold here: integers (the bytes of a payload, the
    [0] of the padding) and references to other objects (devices). *)
Inductive value :=
| VInt (n : Z)
| VObj (o : ref).

Record exn := PyExn { exn_class : string; exn_msg : string }.

Definition ValueError (msg : string) : exn := PyExn "ValueError" msg.

(** The members of [vendor_requests] the SPI bus uses. *)
Inductive vendor_request := SPI_INIT | SPI_WRITE | SPI_READ.

Inductive outcome (A : Type) :=
| Return (a : A)
| Raise (e : exn).
Arguments Return {A} a.
Arguments Raise {A} e.

(** ** The board collaborator *)

(** The two methods of the board that the bus calls.  [E] is the state of
    everything behind the USB link.  A method returns normally or raises,
    and in both cases leaves a new state behind.  Keyword arguments that a
    call does not pass are [None].  The payload of an outgoing request is
    handed over as the contents of the list at the time of the call. *)
Class GreatFETBoard (E : Type) := {
  vendor_request_out :
    ref -> vendor_request -> option Z -> option (list value) -> E -> outcome unit * E;
  vendor_request_in :
    ref -> vendor_request -> Z -> E -> outcome (list Z) * E
}.

(** One request issued to a board, as the board sees it. *)
Inductive event :=
| RequestOut (b : ref) (request : vendor_request) (val : option Z) (data : option (list value))
| RequestIn (b : ref) (request : vendor_request) (len : Z).

(** ** Objects and the store *)

(** The attributes of an [SPIBus] instance.  [devices] is a reference: the
    attribute holds a list object, it is not a list value. *)
Record SPIBus := {
  board : ref;
  buffer_size : Z;
  devices : ref
}.

Record world (E : Type) := World {
  lists : gmap ref (list value);
  buses : gmap ref SPIBus;
  env : E;
  trace : list event
}.
Arguments World {E} _ _ _ _.
Arguments lists {E} _.
Arguments buses {E} _.
Arguments env {E} _.
Arguments trace {E} _.

(** ** Computations: state, exceptions, and [None] for a dangling reference *)

Definition M (E A : Type) : Type := world E -> option (outcome A * world E).

Definition ret {E A} (a : A) : M E A := fun w => Some (Return a, w).

Definition raise {E A} (e : exn) : M E A := fun w => Some (Raise e, w).

Definition bind {E A B} (c : M E A) (k : A -> M E B) : M E B :=
  fun w =>
    match c w with
    | None => None
    | Some (Raise e, w') => Some (Raise e, w')
    | Some (Return a, w') => k a w'
    end.

Declare Scope py_scope.
Delimit Scope py_scope with py.
Notation "'let*' x ':=' c 'in' k" := (bind c (fun x => k))
  (at level 10, x name, c at level 100, k at level 200) : py_scope.
Notation "c ';;;' k" := (bind c (fun _ => k))
  (at level 100, k at level 200, right associativity) : py_scope.
Open Scope py_scope.

Section Bus.

Context {E : Type} `{GreatFETBoard E}.

(** [len(l)] for a list object. *)
Definition len (l : ref) : M E Z :=
  fun w => match lists w !! l with
           | Some xs => Some (Return (Z.of_nat (length xs)), w)
           | None => None
           end.

(** The contents of a list object, as a callee reads them. *)
Definition contents (l : ref) : M E (list value) :=
  fun w => match lists w !! l with
           | Some xs => Some (Return xs, w)
           | None => None
           end.

(** [l.extend(ys)]: the object named [l] grows in place. *)
Definition extend (l : ref) (ys : list value) : M E unit :=
  fun w => match lists w !! l with
           | Some xs =>
               Some (Return tt,
                     World (<[l := xs ++ ys]> (lists w)) (buses w) (env w) (trace w))
           | None => None
           end.

(** [l.append(y)]. *)
Definition append (l : ref) (y : value) : M E unit :=
  fun w => match lists w !! l with
           | Some xs =>
               Some (Return tt,
                     World (<[l := xs ++ [y]]> (lists w)) (buses w) (env w) (trace w))
           | None => None
           end.

(** A fresh empty list object: the value of the expression [[]]. *)
Definition new_list : M E ref :=
  fun w => let l := fresh (dom (lists w)) in
           Some (Return l, World (<[l := []]> (lists w)) (buses w) (env w) (trace w)).

(** Reading an attribute of [self]. *)
Definition getattr {A} (self : ref) (field : SPIBus -> A) : M E A :=
  fun w => match buses w !! self with
           | Some o => Some (Return (field o), w)
           | None => None
           end.

(** [b.vendor_request_out(request, value=val, data=data)]: the request is
    recorded, then the board runs. *)
Definition call_vendor_request_out (b : ref) (request : vendor_request)
    (val : option Z) (data : option (list value)) : M E unit :=
  fun w =>
    let '(r, e') := vendor_request_out b request val data (env w) in
    Some (r, World (lists w) (buses w) e' (trace w ++ [RequestOut b request val data])).

(** [b.vendor_request_in(request, length=n)]. *)
Definition call_vendor_request_in (b : ref) (request : vendor_request)
    (n : Z) : M E (list Z) :=
  fun w =>
    let '(r, e') := vendor_request_in b request n (env w) in
    Some (r, World (lists w) (buses w) e' (trace w ++ [RequestIn b request n])).

(** ** The methods of [SPIBus] *)

(** [freq = serial_clock_rate << 8 | clock_prescale_rate]; in Python [<<]
    binds tighter than [|], and both work on unbounded integers. *)
Definition freq (serial_clock_rate clock_prescale_rate : Z) : Z :=
  Z.lor (Z.shiftl serial_clock_rate 8) clock_prescale_rate.

(** [SPIBus.__init__].  [self] names the instance under construction; the
    keyword arguments left out by the caller are [None] and take the
    defaults of the signature.  [name] is accepted and not used. *)
Definition __init__ (self b : ref) (name : option string)
    (buffer_size serial_clock_rate clock_prescale_rate : option Z) : M E unit :=
  let buffer_size := default 255 buffer_size in
  let serial_clock_rate := default 2 serial_clock_rate in
  let clock_prescale_rate := default 100 clock_prescale_rate in
  let* d := new_list in
  (fun w => Some (Return tt,
                  World (lists w)
                        (<[self := {| board := b; buffer_size := buffer_size; devices := d |}]>
                           (buses w))
                        (env w) (trace w))) ;;;
  let f := freq serial_clock_rate clock_prescale_rate in
  call_vendor_request_out b SPI_INIT (Some f) None.

(** [SPIBus.attach_device]. *)
Definition attach_device (self : ref) (device : value) : M E unit :=
  let* d := getattr self devices in
  append d device.

(** [SPIBus.transmit].  [data] names the caller's list; [receive_length] is
    [None] when the caller leaves it out. *)
Definition transmit (self data : ref) (receive_length : option Z) : M E (list Z) :=
  let* receive_length :=
    match receive_length with
    | None => len data
    | Some n => ret n
    end in
  let* n := len data in
  (if receive_length >? n then
     let padding := receive_length - n in
     extend data (repeat (VInt 0) (Z.to_nat padding))
   else ret tt) ;;;
  let* n := len data in
  let* size := getattr self buffer_size in
  if n >? size then
    raise (ValueError "Tried to send/receive more than the size of the receive buffer.")
  else
    let* b := getattr self board in
    let* payload := contents data in
    call_vendor_request_out b SPI_WRITE None (Some payload) ;;;
    if receive_length >? 0 then
      let* b := getattr self board in
      call_vendor_request_in b SPI_READ receive_length
    else
      ret [].

(** ** What the steps of [transmit] compute *)

(** The text of the [ValueError] of [transmit]. *)
Definition msg_too_long : string :=
  "Tried to send/receive more than the size of the receive buffer.".

(** The receive length [transmit] works with once the default is filled in. *)
Definition effective_receive_length (receive_length : option Z) (l : list value) : Z :=
  match receive_length with
  | None => Z.of_nat (length l)
  | Some n => n
  end.

(** The zeroes [transmit] appends to a list [l] for a receive length [n]. *)
Definition zeroes (n : Z) (l : list value) : list value :=
  repeat (VInt 0) (Z.to_nat (n - Z.of_nat (length l))).

(** The store after the padding step of [transmit]. *)
Definition padded_world (w : world E) (data : ref) (l : list value) (n : Z) : world E :=
  if n >? Z.of_nat (length l)
  then World (<[data := l ++ zeroes n l]> (lists w)) (buses w) (env w) (trace w)
  else w.

(** The payload after the padding step. *)
Definition padded (l : list value) (n : Z) : list value :=
  if n >? Z.of_nat (length l) then l ++ zeroes n l else l.

End Bus.

(** ** Two boards to run the bus against *)

(** The integers of a payload, or [None] when it holds something else. *)
Fixpoint ints (p : list value) : option (list Z) :=
  match p with
  | [] => Some []
  | VInt n :: p => match ints p with Some ns => Some (n :: ns) | None => None end
  | VObj _ :: _ => None
  end.

(** A board whose SPI data output is wired to its data input: a read gives
    back the first bytes of the last write.  Its state is that last write. *)
#[export] Instance loopback : GreatFETBoard (list Z) := {
  vendor_request_out _ request _ data e :=
    match request, data with
    | SPI_WRITE, Some p =>
        match ints p with
        | Some ns => (Return tt, ns)
        | None => (Raise (PyExn "TypeError" "an integer is required"), e)
        end
    | _, _ => (Return tt, e)
    end;
  vendor_request_in _ _ n e := (Return (take (Z.to_nat n) e), e)
}.

(** A board that has been unplugged: every request raises. *)
#[export] Instance unplugged : GreatFETBoard unit := {
  vendor_request_out _ _ _ _ e := (Raise (PyExn "USBError" "No such device"), e);
  vendor_request_in _ _ _ e := (Raise (PyExn "USBError" "No such device"), e)
}.

(** A bus on board [7] with a receive buffer of [size] bytes and its
    registry at reference [2]. *)
Definition bus_of_size (size : Z) : SPIBus :=
  {| board := 7%positive; buffer_size := size; devices := 2%positive |}.

(** A store holding that bus at reference [1], its empty registry, and a
    caller's list at reference [3]; nothing has been requested yet. *)
Definition world0 {E} (e : E) (size : Z) (data : list value) : world E :=
  World (<[3%positive := data]> {[2%positive := []]})
        {[1%positive := bus_of_size size]} e [].

(** ** Callers and observers *)

(** A caller attaching the devices of [ds] one after the other, as each
    SPI device does when it is constructed. *)
Fixpoint attach_devices {E} (self : ref) (ds : list value) : M E unit :=
  match ds with
  | [] => ret tt
  | d :: ds => attach_device self d ;;; attach_devices self ds
  end.

(** Whether a request stays within a receive buffer of [size] bytes. *)
Definition within_buffer (size : Z) (ev : event) : bool :=
  match ev with
  | RequestOut _ _ _ (Some p) => Z.of_nat (length p) <=? size
  | RequestOut _ _ _ None => true
  | RequestIn _ _ n => (0 <? n) && (n <=? size)
  end.

Section Runs.

Context {E : Type} `{GreatFETBoard E}.

(** The four ways through [transmit], by the branch taken at the bounds
    check, by what the write did, and by the test on the receive length.
    [l] is the caller's list on entry and [n] the effective receive
    length. *)
Inductive transmit_run (w : world E) (bus : SPIBus) (data : ref) (l : list value) (n : Z) :
    outcome (list Z) -> world E -> Prop :=
| run_too_long :
    Z.max (Z.of_nat (length l)) n > buffer_size bus ->
    transmit_run w bus data l n
      (Raise (ValueError msg_too_long)) (padded_world w data l n)
| run_write_raises e e1 :
    Z.max (Z.of_nat (length l)) n <= buffer_size bus ->
    vendor_request_out (board bus) SPI_WRITE None (Some (padded l n)) (env w) = (Raise e, e1) ->
    transmit_run w bus data l n
      (Raise e)
      (World (lists (padded_world w data l n)) (buses w) e1
             (trace w ++ [RequestOut (board bus) SPI_WRITE None (Some (padded l n))]))
| run_no_read e1 :
    Z.max (Z.of_nat (length l)) n <= buffer_size bus ->
    vendor_request_out (board bus) SPI_WRITE None (Some (padded l n)) (env w) = (Return tt, e1) ->
    n <= 0 ->
    transmit_run w bus data l n
      (Return [])
      (World (lists (padded_world w data l n)) (buses w) e1
             (trace w ++ [RequestOut (board bus) SPI_WRITE None (Some (padded l n))]))
| run_read e1 r2 e2 :
    Z.max (Z.of_nat (length l)) n <= buffer_size bus ->
    vendor_request_out (board bus) SPI_WRITE None (Some (padded l n)) (env w) = (Return tt, e1) ->
    0 < n ->
    vendor_request_in (board bus) SPI_READ n e1 = (r2, e2) ->
    transmit_run w bus data l n
      r2
      (World (lists (padded_world w data l n)) (buses w) e2
             (trace w ++ [RequestOut (board bus) SPI_WRITE None (Some (padded l n));
                          RequestIn (board bus) SPI_READ n])).

End Runs.

(** * Properties *)

(** ** Running the primitives *)

Lemma bind_Return {E A B} (c : M E A) (k : A -> M E B) w a w' :
  c w = Some (Return a, w') -> bind c k w = k a w'.
Proof. intros Hc. unfold bind. now rewrite Hc. Qed.

Lemma length_zeroes n l :
  Z.of_nat (length l) < n ->
  Z.of_nat (length (l ++ zeroes n l)) = n.
Proof.
  intros Hn. unfold zeroes. rewrite length_app, repeat_length. lia.
Qed.

Section Properties.

Context {E : Type} `{GreatFETBoard E}.

Implicit Types (w : world E) (l : list value) (bus : SPIBus).

Lemma padded_world_lookup w data l n :
  lists w !! data = Some l ->
  lists (padded_world w data l n) !! data = Some (padded l n).
Proof.
  intros Hl. unfold padded_world, padded.
  destruct (n >? Z.of_nat (length l)); simpl; [apply lookup_insert_eq | exact Hl].
Qed.

Lemma padded_world_frame w data l n :
  buses (padded_world w data l n) = buses w /\
  env (padded_world w data l n) = env w /\
  trace (padded_world w data l n) = trace w.
Proof. unfold padded_world. now destruct (n >? Z.of_nat (length l)). Qed.

Lemma length_padded l n :
  Z.of_nat (length (padded l n)) = Z.max (Z.of_nat (length l)) n.
Proof.
  unfold padded. rewrite Z.gtb_ltb.
  destruct (Z.ltb_spec (Z.of_nat (length l)) n) as [Hlt | Hge].
  - rewrite length_zeroes by exact Hlt. lia.
  - lia.
Qed.

(** The first half of [transmit], up to the bounds check: the default, the
    padding in place, and the two lengths are behind us. *)
Lemma transmit_prefix w self data receive_length bus l :
  buses w !! self = Some bus ->
  lists w !! data = Some l ->
  let n := effective_receive_length receive_length l in
  let w1 := padded_world w data l n in
  let p := padded l n in
  transmit self data receive_length w =
    if Z.of_nat (length p) >? buffer_size bus then
      Some (Raise (ValueError msg_too_long), w1)
    else
      (call_vendor_request_out (board bus) SPI_WRITE None (Some p) ;;;
       if n >? 0 then call_vendor_request_in (board bus) SPI_READ n else ret []) w1.
Proof.
  intros Hbus Hl n w1 p.
  assert (Hp : lists w1 !! data = Some p) by now apply padded_world_lookup.
  assert (Hb : buses w1 !! self = Some bus).
  { unfold w1. now rewrite (proj1 (padded_world_frame w data l n)). }
  unfold transmit.
  rewrite (bind_Return _ _ w n w).
  2:{ destruct receive_length; [reflexivity | unfold len; now rewrite Hl]. }
  rewrite (bind_Return _ _ w (Z.of_nat (length l)) w) by (unfold len; now rewrite Hl).
  rewrite (bind_Return _ _ w tt w1).
  2:{ unfold w1, padded_world, zeroes.
      destruct (n >? Z.of_nat (length l)); [unfold extend; now rewrite Hl | reflexivity]. }
  rewrite (bind_Return _ _ w1 (Z.of_nat (length p)) w1) by (unfold len; now rewrite Hp).
  rewrite (bind_Return _ _ w1 (buffer_size bus) w1) by (unfold getattr; now rewrite Hb).
  destruct (Z.of_nat (length p) >? buffer_size bus); [reflexivity |].
  rewrite (bind_Return _ _ w1 (board bus) w1) by (unfold getattr; now rewrite Hb).
  rewrite (bind_Return _ _ w1 p w1) by (unfold contents; now rewrite Hp).
  unfold bind at 1. unfold bind at 2.
  unfold call_vendor_request_out.
  destruct (vendor_request_out (board bus) SPI_WRITE None (Some p) (env w1)) as [[[] | e] e1];
    [| reflexivity].
  destruct (n >? 0); [| reflexivity].
  unfold bind, getattr. simpl. now rewrite Hb.
Qed.

(** ** The bounds check *)

Lemma transmit_over_capacity_fails w self data receive_length bus l :
  buses w !! self = Some bus ->
  lists w !! data = Some l ->
  Z.max (Z.of_nat (length l)) (effective_receive_length receive_length l)
    > buffer_size bus ->
  exists w',
    transmit self data receive_length w = Some (Raise (ValueError msg_too_long), w') /\
    trace w' = trace w.
Proof.
  intros Hbus Hl Hbig.
  rewrite (transmit_prefix w self data receive_length bus l Hbus Hl).
  rewrite length_padded.
  destruct (Z.gtb_spec
              (Z.max (Z.of_nat (length l)) (effective_receive_length receive_length l))
              (buffer_size bus)) as [_ | Hle]; [| lia].
  eexists. split; [reflexivity |].
  apply (padded_world_frame w data l (effective_receive_length receive_length l)).
Qed.

(** C1. Whenever the payload after padding, whose length is the larger of
    [len(data)] and the effective receive length, is longer than
    [buffer_size], [transmit] raises [ValueError], and it does so before
    anything is asked of the board: the trace of requests and the state
    behind the board are what they were. *)
Theorem transmit_over_capacity_raises w self data receive_length bus l :
  buses w !! self = Some bus ->
  lists w !! data = Some l ->
  Z.max (Z.of_nat (length l)) (effective_receive_length receive_length l)
    > buffer_size bus ->
  exists w',
    transmit self data receive_length w = Some (Raise (ValueError msg_too_long), w') /\
    trace w' = trace w /\
    env w' = env w.
Proof.
  intros Hbus Hl Hbig.
  rewrite (transmit_prefix w self data receive_length bus l Hbus Hl).
  rewrite length_padded.
  destruct (Z.gtb_spec
              (Z.max (Z.of_nat (length l)) (effective_receive_length receive_length l))
              (buffer_size bus)) as [_ | Hle]; [| lia].
  eexists. split; [reflexivity |].
  destruct (padded_world_frame w data l (effective_receive_length receive_length l))
    as (_ & He & Ht).
  now split.
Qed.

(** C8. The capacity failure does not roll the padding back.  With a
    receive length above both [len(data)] and [buffer_size], [transmit]
    raises [ValueError] and the caller's list is left extended with the
    zeroes, since the padding runs before the bounds check. *)
Theorem transmit_capacity_failure_keeps_padding w self data n bus l :
  buses w !! self = Some bus ->
  lists w !! data = Some l ->
  n > Z.of_nat (length l) ->
  n > buffer_size bus ->
  exists w',
    transmit self data (Some n) w = Some (Raise (ValueError msg_too_long), w') /\
    lists w' !! data = Some (l ++ repeat (VInt 0) (Z.to_nat (n - Z.of_nat (length l)))) /\
    lists w' !! data <> lists w !! data /\
    trace w' = trace w.
Proof.
  intros Hbus Hl Hpad Hbig.
  rewrite (transmit_prefix w self data (Some n) bus l Hbus Hl).
  rewrite length_padded. simpl effective_receive_length.
  destruct (Z.gtb_spec (Z.max (Z.of_nat (length l)) n) (buffer_size bus)) as [_ | Hle];
    [| lia].
  eexists. split; [reflexivity |].
  unfold padded_world.
  destruct (Z.gtb_spec n (Z.of_nat (length l))) as [_ | Hle]; [| lia].
  simpl. rewrite lookup_insert_eq, Hl.
  split; [reflexivity |]. split; [| reflexivity].
  intros Heq. injection Heq as Heq.
  apply (f_equal (@length value)) in Heq.
  pose proof (length_zeroes n l ltac:(lia)) as Hlen.
  fold (zeroes n l) in Heq. lia.
Qed.

(** ** The transfer *)

(** The second half of [transmit], once the bounds check has passed: the
    write, and the read when one is due.  [lists] is the store the padding
    left behind. *)
Lemma transmit_transfer w self data receive_length bus l :
  buses w !! self = Some bus ->
  lists w !! data = Some l ->
  let n := effective_receive_length receive_length l in
  let p := padded l n in
  let ls := lists (padded_world w data l n) in
  Z.max (Z.of_nat (length l)) n <= buffer_size bus ->
  transmit self data receive_length w =
    let '(r1, e1) := vendor_request_out (board bus) SPI_WRITE None (Some p) (env w) in
    let t1 := trace w ++ [RequestOut (board bus) SPI_WRITE None (Some p)] in
    match r1 with
    | Raise e => Some (Raise e, World ls (buses w) e1 t1)
    | Return _ =>
        if n >? 0 then
          let '(r2, e2) := vendor_request_in (board bus) SPI_READ n e1 in
          Some (r2, World ls (buses w) e2 (t1 ++ [RequestIn (board bus) SPI_READ n]))
        else Some (Return [], World ls (buses w) e1 t1)
    end.
Proof.
  intros Hbus Hl n p ls Hfit.
  rewrite (transmit_prefix w self data receive_length bus l Hbus Hl).
  fold n. fold p. unfold p at 1. rewrite length_padded.
  destruct (Z.gtb_spec (Z.max (Z.of_nat (length l)) n) (buffer_size bus)) as [Hgt | _];
    [lia |].
  destruct (padded_world_frame w data l n) as (Hb & He & Ht).
  unfold bind, call_vendor_request_out, call_vendor_request_in, ret.
  rewrite He, Ht, Hb. fold ls.
  destruct (vendor_request_out (board bus) SPI_WRITE None (Some p) (env w)) as [[[] | e] e1];
    [| reflexivity].
  destruct (n >? 0); [| reflexivity].
  simpl. now destruct (vendor_request_in (board bus) SPI_READ n e1) as [[r2 | e2] e2'].
Qed.

(** A transfer that needs no padding leaves the whole store of lists alone. *)
Lemma padded_world_id w data l n :
  n <= Z.of_nat (length l) -> padded_world w data l n = w /\ padded l n = l.
Proof.
  intros Hle. unfold padded_world, padded.
  now destruct (Z.gtb_spec n (Z.of_nat (length l))) as [Hgt | _]; [lia |].
Qed.

(** C9. With [0 < receive_length <= len(data) <= buffer_size] nothing is
    padded and no list of the store changes; the one write carries the data
    as they are, and once it has returned the one read asks for exactly
    [receive_length] bytes (possibly fewer than were sent); what the read
    gives is what [transmit] gives. *)
Theorem transmit_short_read w self data n bus l e1 :
  buses w !! self = Some bus ->
  lists w !! data = Some l ->
  0 < n ->
  n <= Z.of_nat (length l) ->
  Z.of_nat (length l) <= buffer_size bus ->
  vendor_request_out (board bus) SPI_WRITE None (Some l) (env w) = (Return tt, e1) ->
  transmit self data (Some n) w =
    Some (fst (vendor_request_in (board bus) SPI_READ n e1),
          World (lists w) (buses w)
                (snd (vendor_request_in (board bus) SPI_READ n e1))
                (trace w ++ [RequestOut (board bus) SPI_WRITE None (Some l);
                             RequestIn (board bus) SPI_READ n])).
Proof.
  intros Hbus Hl Hpos Hle Hfit Hw.
  rewrite (transmit_transfer w self data (Some n) bus l Hbus Hl) by (simpl; lia).
  simpl effective_receive_length.
  destruct (padded_world_id w data l n Hle) as [-> ->].
  rewrite Hw.
  destruct (Z.gtb_spec n 0) as [_ | Hz]; [| lia].
  destruct (vendor_request_in (board bus) SPI_READ n e1) as [r2 e2].
  simpl. now rewrite <- app_assoc.
Qed.

(** C3, amended.  For non-empty data that fit the buffer, [transmit]
    without a receive length issues one write carrying the data as they
    are and, once it has returned, one read of [len(data)] bytes, and gives
    what the read gives; the store of lists is untouched. *)
Theorem transmit_default_length w self data bus l e1 :
  buses w !! self = Some bus ->
  lists w !! data = Some l ->
  l <> [] ->
  Z.of_nat (length l) <= buffer_size bus ->
  vendor_request_out (board bus) SPI_WRITE None (Some l) (env w) = (Return tt, e1) ->
  transmit self data None w =
    Some (fst (vendor_request_in (board bus) SPI_READ (Z.of_nat (length l)) e1),
          World (lists w) (buses w)
                (snd (vendor_request_in (board bus) SPI_READ (Z.of_nat (length l)) e1))
                (trace w ++ [RequestOut (board bus) SPI_WRITE None (Some l);
                             RequestIn (board bus) SPI_READ (Z.of_nat (length l))])).
Proof.
  intros Hbus Hl Hne Hfit Hw.
  rewrite (transmit_transfer w self data None bus l Hbus Hl) by (simpl; lia).
  simpl effective_receive_length.
  destruct (padded_world_id w data l (Z.of_nat (length l)) (Z.le_refl _)) as [-> ->].
  rewrite Hw.
  destruct (Z.gtb_spec (Z.of_nat (length l)) 0) as [_ | Hz].
  - destruct (vendor_request_in (board bus) SPI_READ (Z.of_nat (length l)) e1) as [r2 e2].
    simpl. now rewrite <- app_assoc.
  - destruct l; [congruence | simpl in Hz; lia].
Qed.

(** C2, amended.  With [len(data) < receive_length <= buffer_size] the
    caller's list is extended in place with [receive_length - len(data)]
    zeroes, the write carries the data followed by those zeroes, and once
    it has returned the read asks for exactly [receive_length] bytes. *)
Theorem transmit_pads_with_zeroes w self data n bus l e1 :
  buses w !! self = Some bus ->
  lists w !! data = Some l ->
  n > Z.of_nat (length l) ->
  n <= buffer_size bus ->
  let p := l ++ repeat (VInt 0) (Z.to_nat (n - Z.of_nat (length l))) in
  vendor_request_out (board bus) SPI_WRITE None (Some p) (env w) = (Return tt, e1) ->
  transmit self data (Some n) w =
    Some (fst (vendor_request_in (board bus) SPI_READ n e1),
          World (<[data := p]> (lists w)) (buses w)
                (snd (vendor_request_in (board bus) SPI_READ n e1))
                (trace w ++ [RequestOut (board bus) SPI_WRITE None (Some p);
                             RequestIn (board bus) SPI_READ n])).
Proof.
  intros Hbus Hl Hpad Hfit p Hw.
  rewrite (transmit_transfer w self data (Some n) bus l Hbus Hl) by (simpl; lia).
  simpl effective_receive_length.
  unfold padded_world, padded.
  destruct (Z.gtb_spec n (Z.of_nat (length l))) as [_ | Hle]; [| lia].
  fold (zeroes n l) in p, Hw. fold p. rewrite Hw.
  destruct (Z.gtb_spec n 0) as [_ | Hz]; [| lia].
  destruct (vendor_request_in (board bus) SPI_READ n e1) as [r2 e2].
  simpl. now rewrite <- app_assoc.
Qed.

(** C4. When the effective receive length is zero and the data fit the
    buffer, the write is issued with the data as they are and is the only
    request: no read follows.  The call gives the empty sequence, unless
    the write itself raised, in which case that exception comes through. *)
Theorem transmit_zero_length w self data receive_length bus l :
  buses w !! self = Some bus ->
  lists w !! data = Some l ->
  effective_receive_length receive_length l = 0 ->
  Z.of_nat (length l) <= buffer_size bus ->
  exists r w',
    transmit self data receive_length w = Some (r, w') /\
    trace w' = trace w ++ [RequestOut (board bus) SPI_WRITE None (Some l)] /\
    lists w' = lists w /\
    r = match fst (vendor_request_out (board bus) SPI_WRITE None (Some l) (env w)) with
        | Return _ => Return []
        | Raise e => Raise e
        end.
Proof.
  intros Hbus Hl Hzero Hfit.
  rewrite (transmit_transfer w self data receive_length bus l Hbus Hl) by lia.
  rewrite Hzero.
  destruct (padded_world_id w data l 0 ltac:(lia)) as [-> ->].
  destruct (vendor_request_out (board bus) SPI_WRITE None (Some l) (env w)) as [[[] | e] e1];
    simpl; eexists; eexists; (split; [reflexivity |]); simpl; auto.
Qed.

(** C7, amended.  The requests of one [transmit] call come in one of three
    shapes.  A call that fails the bounds check issues none.  Every other
    call issues the write first; a read follows only when the receive
    length is positive and the write has returned normally, and it runs on
    the state that write left behind.  So no call issues a read before or
    without a write. *)
Theorem transmit_write_then_read w self data receive_length bus l :
  buses w !! self = Some bus ->
  lists w !! data = Some l ->
  let n := effective_receive_length receive_length l in
  let p := padded l n in
  let write := RequestOut (board bus) SPI_WRITE None (Some p) in
  let read := RequestIn (board bus) SPI_READ n in
  exists r w' evs,
    transmit self data receive_length w = Some (r, w') /\
    trace w' = trace w ++ evs /\
    ((Z.of_nat (length p) > buffer_size bus /\ evs = [])
     \/ (Z.of_nat (length p) <= buffer_size bus /\ evs = [write] /\
         (n <= 0 \/
          exists e, fst (vendor_request_out (board bus) SPI_WRITE None (Some p) (env w))
                    = Raise e))
     \/ (Z.of_nat (length p) <= buffer_size bus /\ evs = [write; read] /\ 0 < n /\
         exists e1,
           vendor_request_out (board bus) SPI_WRITE None (Some p) (env w) = (Return tt, e1) /\
           r = fst (vendor_request_in (board bus) SPI_READ n e1) /\
           env w' = snd (vendor_request_in (board bus) SPI_READ n e1))).
Proof.
  intros Hbus Hl n p write read.
  destruct (Z.le_gt_cases (Z.of_nat (length p)) (buffer_size bus)) as [Hfit | Hbig].
  - unfold p in Hfit. rewrite length_padded in Hfit.
    pose proof (transmit_transfer w self data receive_length bus l Hbus Hl Hfit) as Hrun.
    cbv zeta in Hrun. fold n p in Hrun. rewrite <- (length_padded l n) in Hfit. fold p in Hfit.
    destruct (vendor_request_out (board bus) SPI_WRITE None (Some p) (env w))
      as [[[] | e] e1] eqn:Hw.
    + destruct (Z.gtb_spec n 0) as [Hpos | Hz].
      * destruct (vendor_request_in (board bus) SPI_READ n e1) as [r2 e2] eqn:Hr.
        eexists; eexists; exists [write; read].
        split; [exact Hrun |]. split; [simpl; now rewrite <- app_assoc |].
        right; right. repeat split; [exact Hfit | lia |].
        exists e1. now rewrite Hr.
      * eexists; eexists; exists [write].
        split; [exact Hrun |]. split; [reflexivity |].
        right; left. repeat split; [exact Hfit |]. now left.
    + eexists; eexists; exists [write].
      split; [exact Hrun |]. split; [reflexivity |].
      right; left. repeat split; [exact Hfit |]. right. now exists e.
  - destruct (transmit_over_capacity_fails w self data receive_length bus l Hbus Hl)
      as (w' & Hrun & Ht).
    { rewrite <- length_padded. fold n p. lia. }
    exists (Raise (ValueError msg_too_long)), w', [].
    split; [exact Hrun |]. split; [now rewrite app_nil_r |].
    left. split; [lia | reflexivity].
Qed.

(** ** The registry *)

Lemma attach_device_run w self bus devs device :
  buses w !! self = Some bus ->
  lists w !! devices bus = Some devs ->
  attach_device self device w =
    Some (Return tt,
          World (<[devices bus := devs ++ [device]]> (lists w)) (buses w) (env w) (trace w)).
Proof.
  intros Hbus Hdevs. unfold attach_device.
  rewrite (bind_Return _ _ w (devices bus) w) by (unfold getattr; now rewrite Hbus).
  unfold append. now rewrite Hdevs.
Qed.

(** C6. [attach_device] puts the device at the end of the registry,
    whatever the registry already holds and however long it is: after
    attaching [a] and then [b] the registry is the old one followed by [a]
    and [b], in that order, and the old entries are still its prefix. *)
Theorem attach_device_appends w self bus devs a b :
  buses w !! self = Some bus ->
  lists w !! devices bus = Some devs ->
  exists w1 w2,
    attach_device self a w = Some (Return tt, w1) /\
    lists w1 !! devices bus = Some (devs ++ [a]) /\
    attach_device self b w1 = Some (Return tt, w2) /\
    lists w2 !! devices bus = Some (devs ++ [a; b]) /\
    (attach_device self a ;;; attach_device self b) w = Some (Return tt, w2).
Proof.
  intros Hbus Hdevs.
  pose proof (attach_device_run w self bus devs a Hbus Hdevs) as H1.
  set (w1 := World (<[devices bus := devs ++ [a]]> (lists w)) (buses w) (env w) (trace w))
    in H1.
  assert (Hd1 : lists w1 !! devices bus = Some (devs ++ [a])) by apply lookup_insert_eq.
  pose proof (attach_device_run w1 self bus (devs ++ [a]) b Hbus Hd1) as H2.
  eexists w1, _.
  split; [exact H1 |]. split; [exact Hd1 |]. split; [exact H2 |]. split.
  - simpl. rewrite lookup_insert_eq. now rewrite <- app_assoc.
  - now rewrite (bind_Return _ _ w tt w1 H1).
Qed.

(** C10, amended.  [transmit] never touches the bus objects: [buffer_size],
    [board] and the reference held in [devices] are the same after the call
    as before, whether it returns or raises.  The only list it can change
    is the one passed as [data], and only by padding; so the contents of
    the registry are unchanged unless the registry itself is passed as
    [data] with a longer receive length.  [attach_device] changes the
    registry list and nothing else. *)
Theorem methods_frame w self data receive_length bus l devs device :
  buses w !! self = Some bus ->
  lists w !! data = Some l ->
  lists w !! devices bus = Some devs ->
  (exists r w',
     transmit self data receive_length w = Some (r, w') /\
     buses w' = buses w /\
     (forall x, x <> data -> lists w' !! x = lists w !! x) /\
     (data <> devices bus \/ effective_receive_length receive_length l <= Z.of_nat (length l) ->
      lists w' !! devices bus = Some devs)) /\
  (exists w',
     attach_device self device w = Some (Return tt, w') /\
     buses w' = buses w /\
     env w' = env w /\
     trace w' = trace w /\
     (forall x, x <> devices bus -> lists w' !! x = lists w !! x)).
Proof.
  intros Hbus Hl Hdevs. split.
  - set (n := effective_receive_length receive_length l).
    assert (Hframe : forall x, x <> data ->
              lists (padded_world w data l n) !! x = lists w !! x).
    { intros x Hx. unfold padded_world.
      destruct (n >? Z.of_nat (length l)); [simpl; now apply lookup_insert_ne | reflexivity]. }
    assert (Hreg : data <> devices bus \/ n <= Z.of_nat (length l) ->
              lists (padded_world w data l n) !! devices bus = Some devs).
    { intros [Hne | Hle].
      - rewrite Hframe by congruence. exact Hdevs.
      - now rewrite (proj1 (padded_world_id w data l n Hle)). }
    destruct (padded_world_frame w data l n) as (Hb & _ & _).
    destruct (Z.le_gt_cases (Z.max (Z.of_nat (length l)) n) (buffer_size bus))
      as [Hfit | Hbig].
    + rewrite (transmit_transfer w self data receive_length bus l Hbus Hl Hfit).
      fold n.
      destruct (vendor_request_out (board bus) SPI_WRITE None (Some (padded l n)) (env w))
        as [[[] | e] e1].
      * destruct (n >? 0).
        -- destruct (vendor_request_in (board bus) SPI_READ n e1) as [r2 e2].
           eexists; eexists. split; [reflexivity |]. simpl. auto.
        -- eexists; eexists. split; [reflexivity |]. simpl. auto.
      * eexists; eexists. split; [reflexivity |]. simpl. auto.
    + rewrite (transmit_prefix w self data receive_length bus l Hbus Hl).
      fold n. rewrite length_padded.
      destruct (Z.gtb_spec (Z.max (Z.of_nat (length l)) n) (buffer_size bus)) as [_ | Hle];
        [| lia].
      eexists; eexists. split; [reflexivity |]. auto.
  - rewrite (attach_device_run w self bus devs device Hbus Hdevs).
    eexists. split; [reflexivity |]. simpl.
    repeat split. intros x Hx. now apply lookup_insert_ne.
Qed.

(** ** The constructor *)

(** What the constructor leaves behind: the instance with its attributes,
    a registry that is a new, empty list, and one more request in the trace. *)
Lemma init_run w self b name size scr cpr :
  let d := fresh (dom (lists w)) in
  let word := freq (default 2 scr) (default 100 cpr) in
  __init__ self b name size scr cpr w =
    Some (fst (vendor_request_out b SPI_INIT (Some word) None (env w)),
          World (<[d := []]> (lists w))
                (<[self := {| board := b; buffer_size := default 255 size; devices := d |}]>
                   (buses w))
                (snd (vendor_request_out b SPI_INIT (Some word) None (env w)))
                (trace w ++ [RequestOut b SPI_INIT (Some word) None])).
Proof.
  intros d word.
  unfold __init__, bind, new_list, call_vendor_request_out. simpl.
  fold d word.
  now destruct (vendor_request_out b SPI_INIT (Some word) None (env w)) as [[[] | e] e1].
Qed.

Lemma init_registry_is_new w :
  lists w !! fresh (dom (lists w)) = None.
Proof. apply not_elem_of_dom, is_fresh. Qed.

(** C5. The constructor computes the word
    [(serial_clock_rate << 8) | clock_prescale_rate] and asks the board for
    exactly one thing: an [SPI_INIT] request whose value is that word and
    which carries no data.  With a serial clock rate of 2 and a prescale
    rate of 100, which are also the defaults, the word is [0x0264]. *)
Theorem init_issues_configuration_word w self b name size scr cpr :
  (exists r w',
     __init__ self b name size (Some scr) (Some cpr) w = Some (r, w') /\
     trace w' = trace w ++ [RequestOut b SPI_INIT (Some (Z.lor (Z.shiftl scr 8) cpr)) None]) /\
  freq 2 100 = 0x0264 /\
  (exists r w',
     __init__ self b name size (Some 2) (Some 100) w = Some (r, w') /\
     trace w' = trace w ++ [RequestOut b SPI_INIT (Some 0x0264) None]) /\
  (exists r w',
     __init__ self b name size None None w = Some (r, w') /\
     trace w' = trace w ++ [RequestOut b SPI_INIT (Some 0x0264) None]).
Proof.
  split; [| split; [reflexivity | split]];
    eexists; eexists; (split; [apply init_run | reflexivity]).
Qed.

End Properties.

(** ** Concrete runs *)

Lemma transmit_over_capacity_raises_witness :
  buses (world0 ([] : list Z) 4 [VInt 1; VInt 2]) !! 1%positive = Some (bus_of_size 4) /\
  lists (world0 ([] : list Z) 4 [VInt 1; VInt 2]) !! 3%positive = Some [VInt 1; VInt 2] /\
  exists w',
    transmit 1%positive 3%positive (Some 5) (world0 ([] : list Z) 4 [VInt 1; VInt 2])
      = Some (Raise (ValueError msg_too_long), w') /\
    trace w' = [] /\
    env w' = [].
Proof.
  split; [reflexivity |]. split; [reflexivity |].
  apply (transmit_over_capacity_raises
           (world0 ([] : list Z) 4 [VInt 1; VInt 2]) 1%positive 3%positive (Some 5)
           (bus_of_size 4) [VInt 1; VInt 2]);
    [reflexivity | reflexivity | simpl; lia].
Defined.

Lemma transmit_capacity_failure_keeps_padding_witness :
  exists w',
    transmit 1%positive 3%positive (Some 5) (world0 ([] : list Z) 4 [VInt 1; VInt 2])
      = Some (Raise (ValueError msg_too_long), w') /\
    lists w' !! 3%positive = Some [VInt 1; VInt 2; VInt 0; VInt 0; VInt 0] /\
    lists w' !! 3%positive <> Some [VInt 1; VInt 2] /\
    trace w' = [].
Proof.
  apply (transmit_capacity_failure_keeps_padding
           (world0 ([] : list Z) 4 [VInt 1; VInt 2]) 1%positive 3%positive 5
           (bus_of_size 4) [VInt 1; VInt 2]);
    [reflexivity | reflexivity | simpl; lia | simpl; lia].
Defined.

Lemma transmit_short_read_witness :
  transmit 1%positive 3%positive (Some 2) (world0 ([] : list Z) 4 [VInt 1; VInt 2; VInt 3])
  = Some (Return [1; 2],
          World (lists (world0 ([] : list Z) 4 [VInt 1; VInt 2; VInt 3]))
                (buses (world0 ([] : list Z) 4 [VInt 1; VInt 2; VInt 3]))
                [1; 2; 3]
                [RequestOut 7%positive SPI_WRITE None (Some [VInt 1; VInt 2; VInt 3]);
                 RequestIn 7%positive SPI_READ 2]).
Proof.
  refine (transmit_short_read
            (world0 ([] : list Z) 4 [VInt 1; VInt 2; VInt 3]) 1%positive 3%positive 2
            (bus_of_size 4) [VInt 1; VInt 2; VInt 3] [1; 2; 3] _ _ _ _ _ _);
    [reflexivity | reflexivity | lia | simpl; lia | simpl; lia | reflexivity].
Defined.

(** C3 as stated fails on the empty list: the default receive length is
    then zero, and the read is skipped. *)
Lemma transmit_default_length_empty_counterexample :
  lists (world0 ([] : list Z) 255 []) !! 3%positive = Some [] /\
  Z.of_nat (length ([] : list value)) <= buffer_size (bus_of_size 255) /\
  exists w',
    transmit 1%positive 3%positive None (world0 ([] : list Z) 255 []) = Some (Return [], w') /\
    trace w' = [RequestOut 7%positive SPI_WRITE None (Some [])] /\
    forall b q n, ~ In (RequestIn b q n) (trace w').
Proof.
  split; [reflexivity |]. split; [simpl; lia |].
  eexists. split; [reflexivity |]. split; [reflexivity |].
  simpl. intros b q n [Hin | []]. discriminate Hin.
Qed.

Lemma transmit_default_length_witness :
  transmit 1%positive 3%positive None (world0 ([] : list Z) 4 [VInt 1; VInt 2])
  = Some (Return [1; 2],
          World (lists (world0 ([] : list Z) 4 [VInt 1; VInt 2]))
                (buses (world0 ([] : list Z) 4 [VInt 1; VInt 2]))
                [1; 2]
                [RequestOut 7%positive SPI_WRITE None (Some [VInt 1; VInt 2]);
                 RequestIn 7%positive SPI_READ 2]).
Proof.
  refine (transmit_default_length
            (world0 ([] : list Z) 4 [VInt 1; VInt 2]) 1%positive 3%positive
            (bus_of_size 4) [VInt 1; VInt 2] [1; 2] _ _ _ _ _);
    [reflexivity | reflexivity | discriminate | simpl; lia | reflexivity].
Defined.

(** C2 as stated fails when the receive length is above the buffer size:
    nothing is sent and nothing is read. *)
Lemma transmit_pads_over_capacity_counterexample :
  lists (world0 ([] : list Z) 4 [VInt 1; VInt 2]) !! 3%positive = Some [VInt 1; VInt 2] /\
  5 > Z.of_nat (length [VInt 1; VInt 2]) /\
  exists w',
    transmit 1%positive 3%positive (Some 5) (world0 ([] : list Z) 4 [VInt 1; VInt 2])
      = Some (Raise (ValueError msg_too_long), w') /\
    trace w' = [] /\
    forall ev, ~ In ev (trace w').
Proof.
  split; [reflexivity |]. split; [simpl; lia |].
  eexists. split; [reflexivity |]. split; [reflexivity |].
  intros ev [].
Qed.

Lemma transmit_pads_with_zeroes_witness :
  transmit 1%positive 3%positive (Some 4) (world0 ([] : list Z) 4 [VInt 1; VInt 2])
  = Some (Return [1; 2; 0; 0],
          World (<[3%positive := [VInt 1; VInt 2; VInt 0; VInt 0]]>
                   (lists (world0 ([] : list Z) 4 [VInt 1; VInt 2])))
                (buses (world0 ([] : list Z) 4 [VInt 1; VInt 2]))
                [1; 2; 0; 0]
                [RequestOut 7%positive SPI_WRITE None
                   (Some [VInt 1; VInt 2; VInt 0; VInt 0]);
                 RequestIn 7%positive SPI_READ 4]).
Proof.
  refine (transmit_pads_with_zeroes
            (world0 ([] : list Z) 4 [VInt 1; VInt 2]) 1%positive 3%positive 4
            (bus_of_size 4) [VInt 1; VInt 2] [1; 2; 0; 0] _ _ _ _ _);
    [reflexivity | reflexivity | simpl; lia | simpl; lia | reflexivity].
Defined.

Lemma transmit_zero_length_witness :
  exists r w',
    transmit 1%positive 3%positive (Some 0) (world0 ([] : list Z) 4 [VInt 1; VInt 2])
      = Some (r, w') /\
    trace w' = [RequestOut 7%positive SPI_WRITE None (Some [VInt 1; VInt 2])] /\
    lists w' = lists (world0 ([] : list Z) 4 [VInt 1; VInt 2]) /\
    r = Return [].
Proof.
  refine (transmit_zero_length
            (world0 ([] : list Z) 4 [VInt 1; VInt 2]) 1%positive 3%positive (Some 0)
            (bus_of_size 4) [VInt 1; VInt 2] _ _ _ _);
    [reflexivity | reflexivity | reflexivity | simpl; lia].
Defined.

(** C7 as stated fails on a call that does not pass the bounds check: no
    write is issued. *)
Lemma transmit_no_write_counterexample :
  exists w',
    transmit 1%positive 3%positive None
      (world0 ([] : list Z) 4 [VInt 1; VInt 2; VInt 3; VInt 4; VInt 5])
      = Some (Raise (ValueError msg_too_long), w') /\
    trace w' = [] /\
    forall b val d, ~ In (RequestOut b SPI_WRITE val d) (trace w').
Proof.
  eexists. split; [reflexivity |]. split; [reflexivity |].
  intros b val d [].
Qed.

Lemma transmit_write_then_read_witness :
  exists r w' evs,
    transmit 1%positive 3%positive (Some 1) (world0 ([] : list Z) 4 [VInt 1; VInt 2])
      = Some (r, w') /\
    trace w' = [] ++ evs /\
    ((2 > 4 /\ evs = [])
     \/ (2 <= 4 /\ evs = [RequestOut 7%positive SPI_WRITE None (Some [VInt 1; VInt 2])] /\
         (1 <= 0 \/ exists e, Return tt = Raise e))
     \/ (2 <= 4 /\
         evs = [RequestOut 7%positive SPI_WRITE None (Some [VInt 1; VInt 2]);
                RequestIn 7%positive SPI_READ 1] /\
         0 < 1 /\
         exists e1 : list Z,
           (Return tt, [1; 2]) = (Return tt, e1) /\
           r = fst (Return (take (Z.to_nat 1) e1), e1) /\
           env w' = snd (Return (take (Z.to_nat 1) e1), e1))).
Proof.
  refine (transmit_write_then_read
            (world0 ([] : list Z) 4 [VInt 1; VInt 2]) 1%positive 3%positive (Some 1)
            (bus_of_size 4) [VInt 1; VInt 2] _ _);
    reflexivity.
Defined.

Lemma attach_device_appends_witness :
  exists w1 w2,
    attach_device 1%positive (VObj 10%positive) (world0 tt 255 []) = Some (Return tt, w1) /\
    lists w1 !! 2%positive = Some ([] ++ [VObj 10%positive]) /\
    attach_device 1%positive (VObj 11%positive) w1 = Some (Return tt, w2) /\
    lists w2 !! 2%positive = Some ([] ++ [VObj 10%positive; VObj 11%positive]) /\
    (attach_device 1%positive (VObj 10%positive) ;;; attach_device 1%positive (VObj 11%positive))
      (world0 tt 255 []) = Some (Return tt, w2).
Proof.
  refine (attach_device_appends (world0 tt 255 []) 1%positive (bus_of_size 255) []
            (VObj 10%positive) (VObj 11%positive) _ _);
    reflexivity.
Defined.

(** C10 as stated fails when the registry itself is passed as [data] with a
    longer receive length: the padding lands in the registry. *)
Lemma transmit_registry_alias_counterexample :
  buses (world0 ([] : list Z) 255 []) !! 1%positive = Some (bus_of_size 255) /\
  lists (world0 ([] : list Z) 255 []) !! devices (bus_of_size 255) = Some [] /\
  exists w',
    transmit 1%positive (devices (bus_of_size 255)) (Some 1) (world0 ([] : list Z) 255 [])
      = Some (Return [0], w') /\
    lists w' !! devices (bus_of_size 255) = Some [VInt 0] /\
    lists w' !! devices (bus_of_size 255)
      <> lists (world0 ([] : list Z) 255 []) !! devices (bus_of_size 255).
Proof.
  split; [reflexivity |]. split; [reflexivity |].
  eexists. split; [reflexivity |]. split; [reflexivity |].
  discriminate.
Qed.

Lemma methods_frame_witness :
  (exists r w',
     transmit 1%positive 3%positive (Some 4) (world0 ([] : list Z) 4 [VInt 1; VInt 2])
       = Some (r, w') /\
     buses w' = buses (world0 ([] : list Z) 4 [VInt 1; VInt 2]) /\
     (forall x, x <> 3%positive ->
        lists w' !! x = lists (world0 ([] : list Z) 4 [VInt 1; VInt 2]) !! x) /\
     (3%positive <> 2%positive \/ 4 <= 2 -> lists w' !! 2%positive = Some [])) /\
  (exists w',
     attach_device 1%positive (VObj 10%positive) (world0 ([] : list Z) 4 [VInt 1; VInt 2])
       = Some (Return tt, w') /\
     buses w' = buses (world0 ([] : list Z) 4 [VInt 1; VInt 2]) /\
     env w' = [] /\
     trace w' = [] /\
     (forall x, x <> 2%positive ->
        lists w' !! x = lists (world0 ([] : list Z) 4 [VInt 1; VInt 2]) !! x)).
Proof.
  refine (methods_frame
            (world0 ([] : list Z) 4 [VInt 1; VInt 2]) 1%positive 3%positive (Some 4)
            (bus_of_size 4) [VInt 1; VInt 2] [] (VObj 10%positive) _ _ _);
    reflexivity.
Defined.

(** A bus built with the defaults on the loopback board, then two devices
    attached: the registry holds exactly the two, in order. *)
Example fresh_bus_two_devices :
  exists w',
    (__init__ 1%positive 7%positive None None None None ;;;
     attach_device 1%positive (VObj 10%positive) ;;;
     attach_device 1%positive (VObj 11%positive)) (World ∅ ∅ ([] : list Z) [])
      = Some (Return tt, w') /\
    (exists d, buses w' !! 1%positive
               = Some {| board := 7%positive; buffer_size := 255; devices := d |} /\
               lists w' !! d = Some [VObj 10%positive; VObj 11%positive]) /\
    trace w' = [RequestOut 7%positive SPI_INIT (Some 0x0264) None].
Proof.
  eexists. split; [vm_compute; reflexivity |].
  split; [| reflexivity].
  eexists. split; vm_compute; reflexivity.
Qed.

(** On a board that raises, the exception of the write comes through and
    the read is never asked for. *)
Example transmit_unplugged :
  exists w',
    transmit 1%positive 3%positive None (world0 tt 4 [VInt 1; VInt 2])
      = Some (Raise (PyExn "USBError" "No such device"), w') /\
    trace w' = [RequestOut 7%positive SPI_WRITE None (Some [VInt 1; VInt 2])].
Proof. eexists. split; reflexivity. Qed.

(** * Further properties *)

(** ** The configuration word *)

Lemma low_byte_of_shifted s : Z.land (Z.shiftl s 8) 255 = 0.
Proof.
  change 255 with (Z.ones 8). rewrite Z.land_ones by lia.
  rewrite Z.shiftl_mul_pow2 by lia. apply Z.mod_mul. lia.
Qed.

Lemma low_byte_id c : 0 <= c < 256 -> Z.land c 255 = c.
Proof.
  intros Hc. change 255 with (Z.ones 8). rewrite Z.land_ones by lia.
  apply Z.mod_small. simpl. lia.
Qed.

Lemma high_bits_of_byte c : 0 <= c < 256 -> Z.shiftr c 8 = 0.
Proof.
  intros Hc. rewrite Z.shiftr_div_pow2 by lia. apply Z.div_small. simpl. lia.
Qed.

(** X1. The two rates can be read back from the word as long as the
    prescale rate is a byte: the low byte of the word is the prescale rate
    and the rest, shifted down, is the serial clock rate.  So on such
    inputs two different settings never give the same word. *)
Theorem freq_unpack s c :
  0 <= c < 256 ->
  Z.shiftr (freq s c) 8 = s /\
  Z.land (freq s c) 255 = c /\
  (forall s' c', 0 <= c' < 256 -> freq s' c' = freq s c -> s' = s /\ c' = c).
Proof.
  intros Hc.
  assert (Hunpack : forall s c, 0 <= c < 256 ->
            Z.shiftr (freq s c) 8 = s /\ Z.land (freq s c) 255 = c).
  { clear. intros s c Hc. unfold freq. split.
    - rewrite Z.shiftr_lor, Z.shiftr_shiftl_l by lia.
      rewrite high_bits_of_byte by exact Hc.
      rewrite Z.lor_0_r. apply Z.shiftl_0_r.
    - rewrite Z.land_lor_distr_l, low_byte_of_shifted, low_byte_id by exact Hc.
      reflexivity. }
  destruct (Hunpack s c Hc) as [Hs Hl].
  split; [exact Hs |]. split; [exact Hl |].
  intros s' c' Hc' Heq.
  destruct (Hunpack s' c' Hc') as [Hs' Hl'].
  rewrite Heq in Hs', Hl'. split; congruence.
Qed.

(** X2. For a prescale rate that is a byte the word is
    [256 * serial_clock_rate + clock_prescale_rate]; when the serial clock
    rate is a byte too, the word fits in 16 bits. *)
Theorem freq_value s c :
  0 <= c < 256 ->
  freq s c = 256 * s + c /\
  (0 <= s < 256 -> 0 <= freq s c < 65536).
Proof.
  intros Hc.
  assert (Hsum : freq s c = 256 * s + c).
  { unfold freq.
    assert (Hdisj : Z.land (Z.shiftl s 8) c = 0).
    { rewrite <- (low_byte_id c Hc), (Z.land_comm c 255), Z.land_assoc, low_byte_of_shifted.
      apply Z.land_0_l. }
    rewrite <- Z.lxor_lor by exact Hdisj.
    rewrite <- Z.add_nocarry_lxor by exact Hdisj.
    rewrite Z.shiftl_mul_pow2 by lia. simpl. lia. }
  split; [exact Hsum |]. intros Hs. lia.
Qed.

(** X3. Nothing checks the rates.  The bits of a prescale rate above its
    low byte land in the serial clock field: the word sent, and so the one
    [SPI_INIT] request, is the one of the in-range prescale rate
    [clock_prescale_rate & 255] with the serial clock rate
    [serial_clock_rate | (clock_prescale_rate >> 8)]. *)
Theorem init_rates_unchecked {E} `{GreatFETBoard E} (w : world E) self b name size s c :
  freq s c = freq (Z.lor s (Z.shiftr c 8)) (Z.land c 255) /\
  0 <= Z.land c 255 < 256 /\
  exists r w',
    __init__ self b name size (Some s) (Some c) w = Some (r, w') /\
    trace w' =
      trace w ++
      [RequestOut b SPI_INIT (Some (freq (Z.lor s (Z.shiftr c 8)) (Z.land c 255))) None].
Proof.
  assert (Hspill : freq s c = freq (Z.lor s (Z.shiftr c 8)) (Z.land c 255)).
  { unfold freq. apply Z.bits_inj'. intros n Hn.
    rewrite !Z.lor_spec, !Z.shiftl_spec, Z.lor_spec, Z.land_spec by exact Hn.
    change 255 with (Z.ones 8). rewrite Z.testbit_ones by lia.
    destruct (Z.ltb_spec n 8) as [Hlo | Hhi].
    - rewrite !(Z.testbit_neg_r _ (n - 8)) by lia.
      destruct (Z.leb_spec 0 n); [| lia].
      simpl. now rewrite andb_true_r.
    - rewrite Z.shiftr_spec by lia. replace (n - 8 + 8) with n by lia.
      rewrite andb_false_r.
      destruct (Z.testbit s (n - 8)), (Z.testbit c n); reflexivity. }
  split; [exact Hspill |]. split.
  { change 255 with (Z.ones 8). rewrite Z.land_ones by lia.
    apply Z.mod_pos_bound. reflexivity. }
  rewrite <- Hspill.
  eexists; eexists. split; [apply init_run | reflexivity].
Qed.

Section TransmitRuns.

Context {E : Type} `{GreatFETBoard E}.

Implicit Types (w : world E) (l : list value) (bus : SPIBus).

(** ** Every call of [transmit] takes one of the four ways *)

Lemma transmit_runs w self data receive_length bus l :
  buses w !! self = Some bus ->
  lists w !! data = Some l ->
  exists r w',
    transmit self data receive_length w = Some (r, w') /\
    transmit_run w bus data l (effective_receive_length receive_length l) r w'.
Proof.
  intros Hbus Hl.
  set (n := effective_receive_length receive_length l).
  destruct (Z.le_gt_cases (Z.max (Z.of_nat (length l)) n) (buffer_size bus))
    as [Hfit | Hbig].
  - rewrite (transmit_transfer w self data receive_length bus l Hbus Hl Hfit). fold n.
    destruct (vendor_request_out (board bus) SPI_WRITE None (Some (padded l n)) (env w))
      as [[[] | e] e1] eqn:Hw.
    + destruct (Z.gtb_spec n 0) as [Hpos | Hz].
      * destruct (vendor_request_in (board bus) SPI_READ n e1) as [r2 e2] eqn:Hr.
        eexists; eexists. split; [reflexivity |].
        simpl. rewrite <- app_assoc. simpl.
        now apply (run_read w bus data l n e1 r2 e2).
      * eexists; eexists. split; [reflexivity |].
        now apply (run_no_read w bus data l n e1).
    + eexists; eexists. split; [reflexivity |].
      now apply (run_write_raises w bus data l n e e1).
  - rewrite (transmit_prefix w self data receive_length bus l Hbus Hl). fold n.
    rewrite length_padded.
    destruct (Z.gtb_spec (Z.max (Z.of_nat (length l)) n) (buffer_size bus)) as [_ | Hle];
      [| lia].
    eexists; eexists. split; [reflexivity |].
    apply run_too_long. lia.
Qed.

Lemma padded_world_other w data l n x :
  x <> data -> lists (padded_world w data l n) !! x = lists w !! x.
Proof.
  intros Hx. unfold padded_world.
  destruct (n >? Z.of_nat (length l)); [simpl; now apply lookup_insert_ne | reflexivity].
Qed.

(** Whatever way a run takes, the lists are those the padding left and the
    bus objects are untouched. *)
Lemma transmit_run_store w bus data l n r w' :
  transmit_run w bus data l n r w' ->
  lists w' = lists (padded_world w data l n) /\ buses w' = buses w.
Proof.
  intros Hrun. destruct Hrun; simpl; split; try reflexivity.
  apply (padded_world_frame w data l n).
Qed.

Lemma padded_split l n :
  exists zs, padded l n = l ++ zs /\ Forall (eq (VInt 0)) zs.
Proof.
  unfold padded. destruct (n >? Z.of_nat (length l)).
  - exists (zeroes n l). split; [reflexivity |].
    unfold zeroes. apply List.Forall_forall. intros x Hx.
    symmetry. now apply repeat_spec in Hx.
  - exists []. split; [now rewrite app_nil_r | constructor].
Qed.

(** X4. Whatever a call of [transmit] does, return or raise, the caller's
    list afterwards is what it was followed by zeroes only, and its length
    is the larger of the old length and the effective receive length:
    [transmit] never drops or rewrites a byte of the caller. *)
Theorem transmit_only_appends_zeroes w self data receive_length bus l :
  buses w !! self = Some bus ->
  lists w !! data = Some l ->
  exists r w' zs,
    transmit self data receive_length w = Some (r, w') /\
    lists w' !! data = Some (l ++ zs) /\
    Forall (eq (VInt 0)) zs /\
    Z.of_nat (length (l ++ zs))
      = Z.max (Z.of_nat (length l)) (effective_receive_length receive_length l).
Proof.
  intros Hbus Hl.
  destruct (transmit_runs w self data receive_length bus l Hbus Hl) as (r & w' & Hrun & Hway).
  destruct (transmit_run_store _ _ _ _ _ _ _ Hway) as [Hls _].
  destruct (padded_split l (effective_receive_length receive_length l)) as (zs & Hzs & Hall).
  exists r, w', zs. split; [exact Hrun |].
  rewrite Hls, (padded_world_lookup w data l _ Hl), Hzs.
  split; [reflexivity |]. split; [exact Hall |].
  rewrite <- Hzs. apply length_padded.
Qed.

(** X5. The bounds check is exact: a call asks something of the board if
    and only if the padded payload is at most [buffer_size] long, so a
    payload of exactly [buffer_size] bytes goes through; and a call that
    asks nothing raises the [ValueError]. *)
Theorem transmit_bounds_check_exact w self data receive_length bus l :
  buses w !! self = Some bus ->
  lists w !! data = Some l ->
  exists r w',
    transmit self data receive_length w = Some (r, w') /\
    (trace w' <> trace w <->
     Z.max (Z.of_nat (length l)) (effective_receive_length receive_length l)
       <= buffer_size bus) /\
    (trace w' = trace w -> r = Raise (ValueError msg_too_long)).
Proof.
  intros Hbus Hl.
  destruct (transmit_runs w self data receive_length bus l Hbus Hl) as (r & w' & Hrun & Hway).
  exists r, w'. split; [exact Hrun |].
  assert (Hgrow : forall (t evs : list event), evs <> [] -> t ++ evs <> t).
  { intros t evs Hne Heq. apply (f_equal (@length event)) in Heq.
    rewrite length_app in Heq. destruct evs; [congruence | simpl in Heq; lia]. }
  destruct Hway as [Hbig | e e1 Hfit Hw | e1 Hfit Hw Hz | e1 r2 e2 Hfit Hw Hpos Hr]; simpl.
  - rewrite (proj2 (proj2 (padded_world_frame w data l _))).
    split; [split; [congruence | lia] | reflexivity].
  - split; [split; [intros _; exact Hfit | intros _; now apply Hgrow] |].
    intros Heq. now apply Hgrow in Heq.
  - split; [split; [intros _; exact Hfit | intros _; now apply Hgrow] |].
    intros Heq. now apply Hgrow in Heq.
  - split; [split; [intros _; exact Hfit | intros _; now apply Hgrow] |].
    intros Heq. now apply Hgrow in Heq.
Qed.

(** X6. No request of [transmit] goes beyond the receive buffer: the write
    carries at most [buffer_size] bytes, a read asks for between 1 and
    [buffer_size] bytes, and never for more bytes than the write of the
    same call carried. *)
Theorem transmit_requests_within_buffer w self data receive_length bus l :
  buses w !! self = Some bus ->
  lists w !! data = Some l ->
  exists r w' evs,
    transmit self data receive_length w = Some (r, w') /\
    trace w' = trace w ++ evs /\
    Forall (fun ev => within_buffer (buffer_size bus) ev = true) evs /\
    (forall b q m, In (RequestIn b q m) evs ->
       exists p, In (RequestOut b SPI_WRITE None (Some p)) evs /\ m <= Z.of_nat (length p)).
Proof.
  intros Hbus Hl.
  destruct (transmit_runs w self data receive_length bus l Hbus Hl) as (r & w' & Hrun & Hway).
  set (n := effective_receive_length receive_length l) in *.
  assert (Hlen : Z.of_nat (length (padded l n)) = Z.max (Z.of_nat (length l)) n)
    by apply length_padded.
  assert (Hout : Z.max (Z.of_nat (length l)) n <= buffer_size bus ->
            within_buffer (buffer_size bus)
              (RequestOut (board bus) SPI_WRITE None (Some (padded l n))) = true).
  { intros Hfit. simpl. apply Z.leb_le. lia. }
  exists r, w'.
  destruct Hway as [Hbig | e e1 Hfit Hw | e1 Hfit Hw Hz | e1 r2 e2 Hfit Hw Hpos Hr].
  - exists []. split; [exact Hrun |]. split.
    + rewrite app_nil_r. apply (padded_world_frame w data l n).
    + split; [constructor | intros b q m []].
  - eexists. split; [exact Hrun |]. split; [reflexivity |]. split.
    + repeat constructor. now apply Hout.
    + intros b q m [Hin | []]. discriminate Hin.
  - eexists. split; [exact Hrun |]. split; [reflexivity |]. split.
    + repeat constructor. now apply Hout.
    + intros b q m [Hin | []]. discriminate Hin.
  - eexists. split; [exact Hrun |]. split; [reflexivity |]. split.
    + repeat constructor; [now apply Hout |].
      simpl. apply andb_true_intro. split; [apply Z.ltb_lt | apply Z.leb_le]; lia.
    + intros b q m [Hin | [Hin | []]]; [discriminate Hin |].
      injection Hin as <- _ <-.
      exists (padded l n). split; [now left | lia].
Qed.

(** X7. An exception of the write comes out of [transmit] as it is, after
    that one request and no other: nothing is retried and no read is
    attempted.  The padding of the caller's list stays. *)
Theorem transmit_write_error_propagates w self data receive_length bus l e e1 :
  buses w !! self = Some bus ->
  lists w !! data = Some l ->
  let n := effective_receive_length receive_length l in
  Z.max (Z.of_nat (length l)) n <= buffer_size bus ->
  vendor_request_out (board bus) SPI_WRITE None (Some (padded l n)) (env w) = (Raise e, e1) ->
  exists w',
    transmit self data receive_length w = Some (Raise e, w') /\
    trace w' = trace w ++ [RequestOut (board bus) SPI_WRITE None (Some (padded l n))] /\
    env w' = e1 /\
    lists w' !! data = Some (padded l n).
Proof.
  intros Hbus Hl n Hfit Hw.
  rewrite (transmit_transfer w self data receive_length bus l Hbus Hl Hfit).
  fold n. rewrite Hw.
  eexists. split; [reflexivity |]. simpl.
  split; [reflexivity |]. split; [reflexivity |].
  now apply padded_world_lookup.
Qed.

(** X8. A receive length that is zero or negative is taken without
    complaint and read as "nothing to receive": when the data fit the
    buffer the write goes out with the data as they are, no read follows,
    no list changes, and the result is the empty list unless the write
    raised. *)
Theorem transmit_nonpositive_length w self data n bus l :
  buses w !! self = Some bus ->
  lists w !! data = Some l ->
  n <= 0 ->
  Z.of_nat (length l) <= buffer_size bus ->
  exists r w',
    transmit self data (Some n) w = Some (r, w') /\
    trace w' = trace w ++ [RequestOut (board bus) SPI_WRITE None (Some l)] /\
    lists w' = lists w /\
    r = match fst (vendor_request_out (board bus) SPI_WRITE None (Some l) (env w)) with
        | Return _ => Return []
        | Raise e => Raise e
        end.
Proof.
  intros Hbus Hl Hn Hfit.
  rewrite (transmit_transfer w self data (Some n) bus l Hbus Hl) by (simpl; lia).
  simpl effective_receive_length.
  destruct (padded_world_id w data l n ltac:(lia)) as [-> ->].
  destruct (Z.gtb_spec n 0) as [Hpos | _]; [lia |].
  destruct (vendor_request_out (board bus) SPI_WRITE None (Some l) (env w)) as [[[] | e] e1];
    simpl; eexists; eexists; (split; [reflexivity |]); simpl; auto.
Qed.

End TransmitRuns.

Section Composition.

Context {E : Type} `{GreatFETBoard E}.

Implicit Types (w : world E) (l : list value) (bus : SPIBus).

(** ** One call after another *)

(** X9. The padding of one call is seen by the next.  After a call with a
    receive length above [len(data)] (and within the buffer), the caller's
    list has the padded length; a second call on the same list without a
    receive length then sends the padded payload, pads nothing more, and
    reads, if it reads, the padded length, not the original one. *)
Theorem transmit_again_sees_padding w self data n bus l :
  buses w !! self = Some bus ->
  lists w !! data = Some l ->
  n > Z.of_nat (length l) ->
  n <= buffer_size bus ->
  exists r1 w1 r2 w2 evs,
    transmit self data (Some n) w = Some (r1, w1) /\
    lists w1 !! data = Some (l ++ zeroes n l) /\
    transmit self data None w1 = Some (r2, w2) /\
    lists w2 = lists w1 /\
    trace w2
      = trace w1 ++ RequestOut (board bus) SPI_WRITE None (Some (l ++ zeroes n l)) :: evs /\
    (evs = [] \/ evs = [RequestIn (board bus) SPI_READ n]).
Proof.
  intros Hbus Hl Hpad Hfit.
  destruct (transmit_runs w self data (Some n) bus l Hbus Hl) as (r1 & w1 & Hrun1 & Hway1).
  simpl effective_receive_length in Hway1.
  destruct (transmit_run_store _ _ _ _ _ _ _ Hway1) as [Hls1 Hbs1].
  assert (Hp : padded l n = l ++ zeroes n l).
  { unfold padded. now destruct (Z.gtb_spec n (Z.of_nat (length l))); [| lia]. }
  set (p := l ++ zeroes n l) in *.
  assert (Hl1 : lists w1 !! data = Some p).
  { rewrite Hls1, (padded_world_lookup w data l n Hl). now rewrite Hp. }
  assert (Hbus1 : buses w1 !! self = Some bus) by now rewrite Hbs1.
  assert (Hlen : Z.of_nat (length p) = n) by (apply length_zeroes; lia).
  destruct (transmit_runs w1 self data None bus p Hbus1 Hl1) as (r2 & w2 & Hrun2 & Hway2).
  simpl effective_receive_length in Hway2.
  destruct (transmit_run_store _ _ _ _ _ _ _ Hway2) as [Hls2 _].
  destruct (padded_world_id w1 data p (Z.of_nat (length p)) (Z.le_refl _)) as [Hid Hpp].
  rewrite Hid in Hls2.
  exists r1, w1, r2, w2.
  destruct Hway2 as [Hbig | e e1 _ Hw | e1 _ Hw Hz | e1 r e2 _ Hw Hpos Hr].
  - lia.
  - exists []. rewrite Hpp in *. simpl in Hls2.
    split; [exact Hrun1 |]. split; [exact Hl1 |]. split; [exact Hrun2 |].
    split; [exact Hls2 |]. split; [reflexivity | now left].
  - exists []. rewrite Hpp in *. simpl in Hls2.
    split; [exact Hrun1 |]. split; [exact Hl1 |]. split; [exact Hrun2 |].
    split; [exact Hls2 |]. split; [reflexivity | now left].
  - exists [RequestIn (board bus) SPI_READ n]. rewrite Hpp, Hlen in *. simpl in Hls2.
    split; [exact Hrun1 |]. split; [exact Hl1 |]. split; [exact Hrun2 |].
    split; [exact Hls2 |]. split; [reflexivity | now right].
Qed.

(** ** The registry and the transfers *)

(** X10. [transmit] does not look at the registry.  On a list that is not
    the registry itself, a call made after a device has been attached has
    the same outcome, leaves the same trace, the same board state and the
    same caller's list as the call made before; and the attached device is
    still in the registry afterwards. *)
Theorem transmit_ignores_registry w self data receive_length bus l devs device :
  buses w !! self = Some bus ->
  lists w !! data = Some l ->
  lists w !! devices bus = Some devs ->
  data <> devices bus ->
  exists wa r w' wa',
    attach_device self device w = Some (Return tt, wa) /\
    transmit self data receive_length w = Some (r, w') /\
    transmit self data receive_length wa = Some (r, wa') /\
    trace wa' = trace w' /\
    env wa' = env w' /\
    lists wa' !! data = lists w' !! data /\
    lists wa' !! devices bus = Some (devs ++ [device]).
Proof.
  intros Hbus Hl Hdevs Hne.
  set (wa := World (<[devices bus := devs ++ [device]]> (lists w)) (buses w) (env w) (trace w)).
  assert (Hla : lists wa !! data = Some l) by (simpl; now rewrite lookup_insert_ne).
  assert (Hda : lists wa !! devices bus = Some (devs ++ [device])) by apply lookup_insert_eq.
  set (n := effective_receive_length receive_length l).
  assert (Hd' : lists (padded_world wa data l n) !! devices bus = Some (devs ++ [device])).
  { rewrite padded_world_other by congruence. exact Hda. }
  assert (Hdata : lists (padded_world wa data l n) !! data
                  = lists (padded_world w data l n) !! data).
  { now rewrite !padded_world_lookup. }
  exists wa.
  destruct (Z.le_gt_cases (Z.max (Z.of_nat (length l)) n) (buffer_size bus))
    as [Hfit | Hbig].
  - rewrite (transmit_transfer w self data receive_length bus l Hbus Hl Hfit).
    rewrite (transmit_transfer wa self data receive_length bus l Hbus Hla Hfit).
    fold n. change (env wa) with (env w). change (trace wa) with (trace w).
    change (buses wa) with (buses w).
    destruct (vendor_request_out (board bus) SPI_WRITE None (Some (padded l n)) (env w))
      as [[[] | e] e1].
    + destruct (n >? 0).
      * destruct (vendor_request_in (board bus) SPI_READ n e1) as [r2 e2].
        eexists; eexists; eexists.
        split; [now apply attach_device_run |].
        split; [reflexivity |]. split; [reflexivity |]. simpl. auto.
      * eexists; eexists; eexists.
        split; [now apply attach_device_run |].
        split; [reflexivity |]. split; [reflexivity |]. simpl. auto.
    + eexists; eexists; eexists.
      split; [now apply attach_device_run |].
      split; [reflexivity |]. split; [reflexivity |]. simpl. auto.
  - rewrite (transmit_prefix w self data receive_length bus l Hbus Hl).
    rewrite (transmit_prefix wa self data receive_length bus l Hbus Hla).
    fold n. rewrite length_padded.
    destruct (Z.gtb_spec (Z.max (Z.of_nat (length l)) n) (buffer_size bus)) as [_ | Hle];
      [| lia].
    eexists; eexists; eexists.
    split; [now apply attach_device_run |].
    split; [reflexivity |]. split; [reflexivity |].
    destruct (padded_world_frame w data l n) as (_ & He & Ht).
    destruct (padded_world_frame wa data l n) as (_ & Hea & Hta).
    rewrite He, Ht, Hea, Hta. auto.
Qed.

(** X11. Attaching any number of devices in a row leaves the registry as
    the old one followed by all of them, in the order of the calls; no
    call raises, none asks anything of the board, and no other list and no
    bus object changes. *)
Theorem attach_devices_appends_all w self bus devs ds :
  buses w !! self = Some bus ->
  lists w !! devices bus = Some devs ->
  exists w',
    attach_devices self ds w = Some (Return tt, w') /\
    lists w' !! devices bus = Some (devs ++ ds) /\
    buses w' = buses w /\
    env w' = env w /\
    trace w' = trace w /\
    (forall x, x <> devices bus -> lists w' !! x = lists w !! x).
Proof.
  revert w devs. induction ds as [| d ds IH]; intros w devs Hbus Hdevs.
  - exists w. rewrite app_nil_r. now repeat split.
  - simpl attach_devices.
    rewrite (bind_Return _ _ w tt _ (attach_device_run w self bus devs d Hbus Hdevs)).
    set (w1 := World (<[devices bus := devs ++ [d]]> (lists w)) (buses w) (env w) (trace w)).
    destruct (IH w1 (devs ++ [d]) Hbus (lookup_insert_eq _ _ _))
      as (w' & Hrun & Hreg & Hb & He & Ht & Hother).
    exists w'. split; [exact Hrun |].
    rewrite <- app_assoc in Hreg.
    repeat split; try assumption.
    intros x Hx. rewrite (Hother x Hx). simpl. now apply lookup_insert_ne.
Qed.

(** ** The constructor and what follows it *)

(** X12. The constructor leaves an instance holding the board and the
    buffer size it was given (255 when none is given) and a registry that
    is a new, empty list: no list that existed before is the registry, and
    no list and no other bus object has changed.  It raises exactly when
    the [SPI_INIT] request raises, with that exception. *)
Theorem init_postcondition w self b name size scr cpr :
  exists r w' d,
    __init__ self b name size scr cpr w = Some (r, w') /\
    r = fst (vendor_request_out b SPI_INIT
               (Some (freq (default 2 scr) (default 100 cpr))) None (env w)) /\
    buses w' !! self
      = Some {| board := b; buffer_size := default 255 size; devices := d |} /\
    lists w !! d = None /\
    lists w' !! d = Some [] /\
    (forall x, x <> d -> lists w' !! x = lists w !! x) /\
    (forall x, x <> self -> buses w' !! x = buses w !! x).
Proof.
  eexists; eexists; exists (fresh (dom (lists w))).
  split; [apply init_run |]. simpl.
  split; [reflexivity |].
  split; [apply lookup_insert_eq |].
  split; [apply init_registry_is_new |].
  split; [apply lookup_insert_eq |].
  split; intros x Hx; now apply lookup_insert_ne.
Qed.

(** X13. Two buses never share a registry: after two constructions the
    two [devices] attributes name different lists, and a device attached
    to the first bus shows up in the first registry only. *)
Theorem buses_have_separate_registries w s1 s2 b1 b2 name1 name2 size1 size2
    scr1 scr2 cpr1 cpr2 device :
  s1 <> s2 ->
  exists r1 w1 r2 w2 bus1 bus2 w3,
    __init__ s1 b1 name1 size1 scr1 cpr1 w = Some (r1, w1) /\
    __init__ s2 b2 name2 size2 scr2 cpr2 w1 = Some (r2, w2) /\
    buses w2 !! s1 = Some bus1 /\
    buses w2 !! s2 = Some bus2 /\
    devices bus1 <> devices bus2 /\
    attach_device s1 device w2 = Some (Return tt, w3) /\
    lists w3 !! devices bus1 = Some [device] /\
    lists w3 !! devices bus2 = Some [].
Proof.
  intros Hs.
  pose proof (init_run w s1 b1 name1 size1 scr1 cpr1) as Hrun1. cbv zeta in Hrun1.
  set (d1 := fresh (dom (lists w))) in *.
  match type of Hrun1 with _ = Some (?r, ?ww) => set (r1 := r) in *; set (w1 := ww) in * end.
  pose proof (init_run w1 s2 b2 name2 size2 scr2 cpr2) as Hrun2. cbv zeta in Hrun2.
  set (d2 := fresh (dom (lists w1))) in *.
  match type of Hrun2 with _ = Some (?r, ?ww) => set (r2 := r) in *; set (w2 := ww) in * end.
  assert (Hd : d1 <> d2).
  { intros Heq. pose proof (init_registry_is_new w1) as Hnew. fold d2 in Hnew.
    rewrite <- Heq in Hnew. unfold w1 in Hnew. simpl in Hnew.
    now rewrite lookup_insert_eq in Hnew. }
  set (bus1 := {| board := b1; buffer_size := default 255 size1; devices := d1 |}).
  set (bus2 := {| board := b2; buffer_size := default 255 size2; devices := d2 |}).
  assert (Hb1 : buses w2 !! s1 = Some bus1).
  { unfold w2, w1. simpl. rewrite lookup_insert_ne by congruence. apply lookup_insert_eq. }
  assert (Hb2 : buses w2 !! s2 = Some bus2) by apply lookup_insert_eq.
  assert (Hl1 : lists w2 !! d1 = Some []).
  { unfold w2, w1. simpl. rewrite lookup_insert_ne by congruence. apply lookup_insert_eq. }
  assert (Hl2 : lists w2 !! d2 = Some []) by apply lookup_insert_eq.
  exists r1, w1, r2, w2, bus1, bus2. eexists.
  split; [exact Hrun1 |]. split; [exact Hrun2 |].
  split; [exact Hb1 |]. split; [exact Hb2 |]. split; [exact Hd |].
  split; [apply (attach_device_run w2 s1 bus1 [] device Hb1 Hl1) |].
  cbn [lists devices bus1 bus2].
  split; [apply lookup_insert_eq |].
  rewrite lookup_insert_ne by exact Hd. exact Hl2.
Qed.

(** X14. A bus enforces the buffer size and talks to the board it was
    built with.  For a list that exists when the bus is constructed, a
    later [transmit] raises the [ValueError] and asks nothing when the
    padded payload is longer than the size given to the constructor (255
    by default), and otherwise its first request is the write of the padded
    payload to the constructor's board. *)
Theorem constructed_bus_enforces_size w self b name size scr cpr data receive_length l :
  lists w !! data = Some l ->
  let n := effective_receive_length receive_length l in
  exists r0 w0 r w',
    __init__ self b name size scr cpr w = Some (r0, w0) /\
    transmit self data receive_length w0 = Some (r, w') /\
    (Z.max (Z.of_nat (length l)) n > default 255 size ->
     r = Raise (ValueError msg_too_long) /\ trace w' = trace w0) /\
    (Z.max (Z.of_nat (length l)) n <= default 255 size ->
     exists evs,
       trace w' = trace w0 ++ RequestOut b SPI_WRITE None (Some (padded l n)) :: evs).
Proof.
  intros Hl n.
  pose proof (init_run w self b name size scr cpr) as Hrun0. cbv zeta in Hrun0.
  set (d := fresh (dom (lists w))) in *.
  match type of Hrun0 with _ = Some (?r, ?ww) => set (r0 := r) in *; set (w0 := ww) in * end.
  set (bus := {| board := b; buffer_size := default 255 size; devices := d |}).
  assert (Hbus : buses w0 !! self = Some bus) by apply lookup_insert_eq.
  assert (Hl0 : lists w0 !! data = Some l).
  { unfold w0. simpl. rewrite lookup_insert_ne; [exact Hl |].
    intros Heq. pose proof (init_registry_is_new w) as Hnew. fold d in Hnew. congruence. }
  destruct (transmit_runs w0 self data receive_length bus l Hbus Hl0)
    as (r & w' & Hrun & Hway).
  fold n in Hway.
  exists r0, w0, r, w'. split; [exact Hrun0 |]. split; [exact Hrun |].
  destruct Hway as [Hbig | e e1 Hfit Hw | e1 Hfit Hw Hz | e1 r2 e2 Hfit Hw Hpos Hr];
    unfold bus in *; cbn [buffer_size board] in *.
  - split; [| intros Hc; lia]. intros _. split; [reflexivity |].
    apply (padded_world_frame w0 data l n).
  - split; [intros Hc; lia |]. intros _. now exists [].
  - split; [intros Hc; lia |]. intros _. now exists [].
  - split; [intros Hc; lia |]. intros _. now eexists.
Qed.

End Composition.

(** ** Concrete runs of the further properties *)

Lemma freq_unpack_witness :
  Z.shiftr (freq 2 100) 8 = 2 /\
  Z.land (freq 2 100) 255 = 100 /\
  (forall s' c', 0 <= c' < 256 -> freq s' c' = freq 2 100 -> s' = 2 /\ c' = 100).
Proof. refine (freq_unpack 2 100 _). lia. Defined.

Lemma freq_value_witness :
  freq 2 100 = 256 * 2 + 100 /\ (0 <= 2 < 256 -> 0 <= freq 2 100 < 65536).
Proof. refine (freq_value 2 100 _). lia. Defined.

Lemma transmit_only_appends_zeroes_witness :
  exists r w' zs,
    transmit 1%positive 3%positive (Some 4) (world0 ([] : list Z) 4 [VInt 1; VInt 2])
      = Some (r, w') /\
    lists w' !! 3%positive = Some ([VInt 1; VInt 2] ++ zs) /\
    Forall (eq (VInt 0)) zs /\
    Z.of_nat (length ([VInt 1; VInt 2] ++ zs)) = Z.max 2 4.
Proof.
  refine (transmit_only_appends_zeroes
            (world0 ([] : list Z) 4 [VInt 1; VInt 2]) 1%positive 3%positive (Some 4)
            (bus_of_size 4) [VInt 1; VInt 2] _ _);
    reflexivity.
Defined.

Lemma transmit_bounds_check_exact_witness :
  exists r w',
    transmit 1%positive 3%positive (Some 4) (world0 ([] : list Z) 4 [VInt 1; VInt 2])
      = Some (r, w') /\
    (trace w' <> [] <-> Z.max 2 4 <= 4) /\
    (trace w' = [] -> r = Raise (ValueError msg_too_long)).
Proof.
  refine (transmit_bounds_check_exact
            (world0 ([] : list Z) 4 [VInt 1; VInt 2]) 1%positive 3%positive (Some 4)
            (bus_of_size 4) [VInt 1; VInt 2] _ _);
    reflexivity.
Defined.

Lemma transmit_requests_within_buffer_witness :
  exists r w' evs,
    transmit 1%positive 3%positive (Some 4) (world0 ([] : list Z) 4 [VInt 1; VInt 2])
      = Some (r, w') /\
    trace w' = [] ++ evs /\
    Forall (fun ev => within_buffer 4 ev = true) evs /\
    (forall b q m, In (RequestIn b q m) evs ->
       exists p, In (RequestOut b SPI_WRITE None (Some p)) evs /\ m <= Z.of_nat (length p)).
Proof.
  refine (transmit_requests_within_buffer
            (world0 ([] : list Z) 4 [VInt 1; VInt 2]) 1%positive 3%positive (Some 4)
            (bus_of_size 4) [VInt 1; VInt 2] _ _);
    reflexivity.
Defined.

Lemma transmit_write_error_propagates_witness :
  exists w',
    transmit 1%positive 3%positive (Some 3) (world0 tt 4 [VInt 1; VInt 2])
      = Some (Raise (PyExn "USBError" "No such device"), w') /\
    trace w' = [RequestOut 7%positive SPI_WRITE None (Some [VInt 1; VInt 2; VInt 0])] /\
    env w' = tt /\
    lists w' !! 3%positive = Some [VInt 1; VInt 2; VInt 0].
Proof.
  refine (transmit_write_error_propagates
            (world0 tt 4 [VInt 1; VInt 2]) 1%positive 3%positive (Some 3)
            (bus_of_size 4) [VInt 1; VInt 2] (PyExn "USBError" "No such device") tt
            _ _ _ _);
    [reflexivity | reflexivity | simpl; lia | reflexivity].
Defined.

Lemma transmit_nonpositive_length_witness :
  exists r w',
    transmit 1%positive 3%positive (Some (-3)) (world0 ([] : list Z) 4 [VInt 1; VInt 2])
      = Some (r, w') /\
    trace w' = [RequestOut 7%positive SPI_WRITE None (Some [VInt 1; VInt 2])] /\
    lists w' = lists (world0 ([] : list Z) 4 [VInt 1; VInt 2]) /\
    r = Return [].
Proof.
  refine (transmit_nonpositive_length
            (world0 ([] : list Z) 4 [VInt 1; VInt 2]) 1%positive 3%positive (-3)
            (bus_of_size 4) [VInt 1; VInt 2] _ _ _ _);
    [reflexivity | reflexivity | lia | simpl; lia].
Defined.

Lemma transmit_again_sees_padding_witness :
  exists r1 w1 r2 w2 evs,
    transmit 1%positive 3%positive (Some 4) (world0 ([] : list Z) 4 [VInt 1; VInt 2])
      = Some (r1, w1) /\
    lists w1 !! 3%positive = Some [VInt 1; VInt 2; VInt 0; VInt 0] /\
    transmit 1%positive 3%positive None w1 = Some (r2, w2) /\
    lists w2 = lists w1 /\
    trace w2
      = trace w1 ++
        RequestOut 7%positive SPI_WRITE None (Some [VInt 1; VInt 2; VInt 0; VInt 0]) :: evs /\
    (evs = [] \/ evs = [RequestIn 7%positive SPI_READ 4]).
Proof.
  refine (transmit_again_sees_padding
            (world0 ([] : list Z) 4 [VInt 1; VInt 2]) 1%positive 3%positive 4
            (bus_of_size 4) [VInt 1; VInt 2] _ _ _ _);
    [reflexivity | reflexivity | simpl; lia | simpl; lia].
Defined.

Lemma transmit_ignores_registry_witness :
  exists wa r w' wa',
    attach_device 1%positive (VObj 10%positive) (world0 ([] : list Z) 4 [VInt 1; VInt 2])
      = Some (Return tt, wa) /\
    transmit 1%positive 3%positive None (world0 ([] : list Z) 4 [VInt 1; VInt 2])
      = Some (r, w') /\
    transmit 1%positive 3%positive None wa = Some (r, wa') /\
    trace wa' = trace w' /\
    env wa' = env w' /\
    lists wa' !! 3%positive = lists w' !! 3%positive /\
    lists wa' !! 2%positive = Some [VObj 10%positive].
Proof.
  refine (transmit_ignores_registry
            (world0 ([] : list Z) 4 [VInt 1; VInt 2]) 1%positive 3%positive None
            (bus_of_size 4) [VInt 1; VInt 2] [] (VObj 10%positive) _ _ _ _);
    [reflexivity | reflexivity | reflexivity | discriminate].
Defined.

Lemma attach_devices_appends_all_witness :
  exists w',
    attach_devices 1%positive [VObj 10%positive; VObj 11%positive; VObj 10%positive]
      (world0 tt 255 []) = Some (Return tt, w') /\
    lists w' !! 2%positive = Some [VObj 10%positive; VObj 11%positive; VObj 10%positive] /\
    buses w' = buses (world0 tt 255 []) /\
    env w' = tt /\
    trace w' = [] /\
    (forall x, x <> 2%positive -> lists w' !! x = lists (world0 tt 255 []) !! x).
Proof.
  refine (attach_devices_appends_all (world0 tt 255 []) 1%positive (bus_of_size 255) []
            [VObj 10%positive; VObj 11%positive; VObj 10%positive] _ _);
    reflexivity.
Defined.

Lemma buses_have_separate_registries_witness :
  exists r1 w1 r2 w2 bus1 bus2 w3,
    __init__ 1%positive 7%positive None None None None (World ∅ ∅ ([] : list Z) [])
      = Some (r1, w1) /\
    __init__ 2%positive 7%positive None (Some 16) None None w1 = Some (r2, w2) /\
    buses w2 !! 1%positive = Some bus1 /\
    buses w2 !! 2%positive = Some bus2 /\
    devices bus1 <> devices bus2 /\
    attach_device 1%positive (VObj 10%positive) w2 = Some (Return tt, w3) /\
    lists w3 !! devices bus1 = Some [VObj 10%positive] /\
    lists w3 !! devices bus2 = Some [].
Proof.
  refine (buses_have_separate_registries (World ∅ ∅ ([] : list Z) [])
            1%positive 2%positive 7%positive 7%positive None None None (Some 16)
            None None None None (VObj 10%positive) _).
  discriminate.
Defined.

Lemma constructed_bus_enforces_size_witness :
  exists r0 w0 r w',
    __init__ 5%positive 7%positive None (Some 3) None None
      (world0 ([] : list Z) 4 [VInt 1; VInt 2]) = Some (r0, w0) /\
    transmit 5%positive 3%positive (Some 4) w0 = Some (r, w') /\
    (Z.max 2 4 > 3 -> r = Raise (ValueError msg_too_long) /\ trace w' = trace w0) /\
    (Z.max 2 4 <= 3 ->
     exists evs,
       trace w' = trace w0 ++
                  RequestOut 7%positive SPI_WRITE None (Some (padded [VInt 1; VInt 2] 4))
                  :: evs).
Proof.
  refine (constructed_bus_enforces_size
            (world0 ([] : list Z) 4 [VInt 1; VInt 2]) 5%positive 7%positive None (Some 3)
            None None 3%positive (Some 4) [VInt 1; VInt 2] _).
  reflexivity.
Defined.
